(** * OctreeChunk: one tile of the octree and its load state

    A model of [napari/layers/image/experimental/octree_chunk.py]:
    the value types [OctreeChunkGeom] and [OctreeLocation], the cache key
    [OctreeChunkKey], and the mutable [OctreeChunk] with its data setter,
    its accessors and [clear].

    Python objects are mutated in place and a raised exception does not
    undo the stores made before it, so methods are written in a monad that
    threads the chunk and returns it next to the outcome of the call. *)

From Stdlib Require Import Ascii.
From stdpp Require Import base numbers list strings pretty.

Open Scope Z_scope.

(** ** Outcomes of a call *)

Inductive exn : Type :=
| AssertionError
| TypeError
| IndexError.

Inductive result (A : Type) : Type :=
| Ok (a : A)
| Raise (e : exn).
Arguments Ok {A} a.
Arguments Raise {A} e.

(** ** Python objects held by reference

    The data of a chunk is an object known by its identity and its class:
    [isinstance(data, np.ndarray)] looks at the class, [a is b] at the
    identity.  Objects are never changed through the chunk, so an object is
    its identity together with its class, and [is] is equality. *)

Inductive PyClass : Type :=
| np_ndarray      (* numpy.ndarray or a subclass: bytes in memory *)
| other_class.    (* anything else: a Dask array, a lazy array, None, ... *)

Record ArrayLike : Type := PyObj {
  py_id : N;
  py_class : PyClass
}.

Definition isinstance_ndarray (o : ArrayLike) : bool :=
  match py_class o with
  | np_ndarray => true
  | other_class => false
  end.

(** ** OctreeLocation *)

Record OctreeLocation : Type := mkLocation {
  slice_id : Z;
  level_index : Z;
  row : Z;
  col : Z
}.

(** ** OctreeChunkKey *)

(** Modelled from the spec: the owning layer ([Layer] is imported from
    [napari.layers], which is not among the sources).  The key takes from it
    an opaque, hashable identity and nothing else. *)
Record Layer : Type := mkLayer {
  owner_id : N
}.

(** A Python [slice(start, stop, step)]. *)
Record slice : Type := mkSlice {
  start : option Z;
  stop : option Z;
  step : option Z
}.

(** [Tuple[Optional[slice], ...]] *)
Definition Indices : Type := list (option slice).

(** The members of the tuple returned by [_get_hash_values]. *)
Inductive HashValue : Type :=
| HOwner (id : N)
| HIndices (indices : Indices)
| HLocation (l : OctreeLocation).

#[global] Instance OctreeLocation_eq_dec : EqDecision OctreeLocation.
Proof. solve_decision. Defined.

#[global] Instance slice_eq_dec : EqDecision slice.
Proof. solve_decision. Defined.

#[global] Instance HashValue_eq_dec : EqDecision HashValue.
Proof. solve_decision. Defined.

(** Modelled from the spec: the base class [ChunkKey] is imported from
    [napari.components.experimental.chunk], which is not among the sources.
    It is built from the owner and the index tuple, its hash values are
    these two, and two keys are equal, and hash alike, when their tuples of
    hash values are. *)
Module ChunkKey.

Record t : Type := mk {
  layer_id : N;
  indices : Indices
}.

Definition init (layer : Layer) (idx : Indices) : t :=
  {| layer_id := owner_id layer; indices := idx |}.

Definition _get_hash_values (self : t) : list HashValue :=
  [HOwner (layer_id self); HIndices (indices self)].

End ChunkKey.

Module OctreeChunkKey.

Record t : Type := mk {
  location : OctreeLocation;
  base : ChunkKey.t
}.

(** [__init__]: [self.location = location], then
    [super().__init__(layer, indices)]. *)
Definition init (layer : Layer) (idx : Indices) (loc : OctreeLocation) : t :=
  {| location := loc; base := ChunkKey.init layer idx |}.

(** [_get_hash_values]: [parent + (self.location,)]. *)
Definition _get_hash_values (self : t) : list HashValue :=
  ChunkKey._get_hash_values (base self) ++ [HLocation (location self)].

(** Modelled from the spec: [__eq__] and [__hash__] are inherited from
    [ChunkKey]; they compare, and hash, the tuple of hash values.
    [py_hash] is Python's [hash] on such tuples. *)
Definition eq (k1 k2 : t) : bool :=
  bool_decide (_get_hash_values k1 = _get_hash_values k2).

Definition hash (py_hash : list HashValue → Z) (self : t) : Z :=
  py_hash (_get_hash_values self).

End OctreeChunkKey.

(** A key as an object.  Every call [OctreeChunkKey(layer, indices,
    location)] makes a new object, with an identity of its own; equality and
    hash that a class does not define go by that identity. *)
Record KeyObject : Type := mkKeyObject {
  key_object_id : N;
  key_object_state : OctreeChunkKey.t
}.

(** [OctreeChunkKey(layer, indices, location)], the new object having the
    identity [new_id]. *)
Definition OctreeChunkKey_new (new_id : N) (layer : Layer) (idx : Indices)
    (loc : OctreeLocation) : KeyObject :=
  {| key_object_id := new_id;
     key_object_state := OctreeChunkKey.init layer idx loc |}.

(** Modelled from the spec: [a == b] and [hash(a)] for two key objects are
    those of [ChunkKey], taken on the hash values that [_get_hash_values]
    returns for each, whichever objects these are. *)
Definition KeyObject_eq (a b : KeyObject) : bool :=
  OctreeChunkKey.eq (key_object_state a) (key_object_state b).

Definition KeyObject_hash (py_hash : list HashValue → Z) (a : KeyObject) : Z :=
  OctreeChunkKey.hash py_hash (key_object_state a).

Section Octree.

(** Elements of the numeric arrays ([pos], [scale]); they are only read and
    compared, never computed with. *)
Context {scalar : Type}.

(** ** OctreeChunkGeom *)

Record OctreeChunkGeom : Type := mkGeom {
  pos : list scalar;
  scale : list scalar
}.

(** Values passed to a constructor call. *)
Inductive PyVal : Type :=
| PyInt (z : Z)
| PyNdarray (items : list scalar).

(** [np.zeros(0)]: the array without elements. *)
Definition np_zeros_0 : PyVal := PyNdarray [].

Definition OctreeLocation_fields : list string :=
  ["slice_id"; "level_index"; "row"; "col"]%string.

(** A call [cls(a1, ..., an)] of a [NamedTuple] class: the generated
    [__new__] has one positional parameter per field and no defaults, and
    builds the tuple of its arguments; any other number of arguments is a
    [TypeError]. *)
Definition namedtuple_new (fields : list string) (args : list PyVal)
  : result (list PyVal) :=
  if Nat.eqb (length args) (length fields) then Ok args else Raise TypeError.

(** The tuple that an [OctreeLocation] is. *)
Definition OctreeLocation_astuple (l : OctreeLocation) : list PyVal :=
  [PyInt (slice_id l); PyInt (level_index l); PyInt (row l); PyInt (col l)].

(** [OctreeLocation.create_null()]:
    [return cls(0, 0, 0, 0, np.zeros(0), np.zeros(0))]. *)
Definition create_null : result (list PyVal) :=
  namedtuple_new OctreeLocation_fields
    [PyInt 0; PyInt 0; PyInt 0; PyInt 0; np_zeros_0; np_zeros_0].

(** ** OctreeChunk *)

Record OctreeChunk : Type := mkChunk {
  _data : ArrayLike;
  _orig_data : ArrayLike;
  location : OctreeLocation;
  geom : OctreeChunkGeom;
  loading : bool
}.

(** [OctreeChunk.__init__(data, location, geom)]. *)
Definition OctreeChunk_init (data : ArrayLike) (loc : OctreeLocation)
    (g : OctreeChunkGeom) : OctreeChunk :=
  {| _data := data;
     _orig_data := data;
     location := loc;
     geom := g;
     loading := false |}.

(** *** The method monad *)

Definition M (A : Type) : Type := OctreeChunk → result A * OctreeChunk.

Definition ret {A} (a : A) : M A := λ self, (Ok a, self).

Definition bind {A B} (m : M A) (k : A → M B) : M B :=
  λ self,
    match m self with
    | (Ok a, self') => k a self'
    | (Raise e, self') => (Raise e, self')
    end.

Definition raise {A} (e : exn) : M A := λ self, (Raise e, self).

Definition read {A} (f : OctreeChunk → A) : M A := λ self, (Ok (f self), self).

Definition write (f : OctreeChunk → OctreeChunk) : M () := λ self, (Ok (), f self).

Declare Scope py_scope.
Delimit Scope py_scope with py.
Notation "'let*' x := m 'in' k" := (bind m (λ x, k))
  (at level 10, x name, m at level 100, k at level 200) : py_scope.
Notation "m >> k" := (bind m (λ _, k))
  (at level 80, right associativity) : py_scope.
Open Scope py_scope.

(** [assert e], assertions being enabled as they are by default. *)
Definition assert_ (e : bool) : M () :=
  if e then ret () else raise AssertionError.

(** [self._data = v] *)
Definition store__data (v : ArrayLike) : M () :=
  write (λ self,
    {| _data := v;
       _orig_data := _orig_data self;
       location := location self;
       geom := geom self;
       loading := loading self |}).

(** [self.loading = b]; [loading] is a plain public attribute, so this is
    also what a caller does to mark the chunk as queued. *)
Definition store_loading (b : bool) : M () :=
  write (λ self,
    {| _data := _data self;
       _orig_data := _orig_data self;
       location := location self;
       geom := geom self;
       loading := b |}).

(** [data] (getter) *)
Definition data (self : OctreeChunk) : ArrayLike := _data self.

(** [data] (setter) *)
Definition data_setter (d : ArrayLike) : M () :=
  assert_ (isinstance_ndarray d) >>
  store__data d >>
  store_loading false.

(** [a[i]] for a one-dimensional array and an index from its start. *)
Definition index {A} (l : list A) (i : nat) : result A :=
  match l !! i with
  | Some a => Ok a
  | None => Raise IndexError
  end.

(** [key]: [(self.geom.pos[0], self.geom.pos[1], self.location.level_index)] *)
Definition key (self : OctreeChunk) : result (scalar * scalar * Z) :=
  match index (pos (geom self)) 0 with
  | Ok p0 =>
    match index (pos (geom self)) 1 with
    | Ok p1 => Ok (p0, p1, level_index (location self))
    | Raise e => Raise e
    end
  | Raise e => Raise e
  end.

(** [in_memory] *)
Definition in_memory (self : OctreeChunk) : bool :=
  isinstance_ndarray (data self).

(** [needs_load] *)
Definition needs_load (self : OctreeChunk) : bool :=
  negb (in_memory self) && negb (loading self).

(** [clear()] *)
Definition clear : M () :=
  let* orig := read _orig_data in
  store__data orig >>
  store_loading false.

(** *** The data setter, statement by statement

    The body of the setter is three statements, run one after the other
    with no lock held.  After each of them the chunk is in a state of its
    own, which is what code running in another context finds when it reads
    the attributes of the chunk at that point. *)

(** Lines 146, 149 and 150. *)
Definition data_setter_body (d : ArrayLike) : list (M ()) :=
  [assert_ (isinstance_ndarray d); store__data d; store_loading false].

(** The statements of a body run in order, up to the first that raises. *)
Fixpoint exec_body (body : list (M ())) : M () :=
  match body with
  | [] => ret ()
  | stmt :: rest => stmt >> exec_body rest
  end.

(** The chunk after each statement that completes. *)
Fixpoint states_after (body : list (M ())) (self : OctreeChunk)
  : list OctreeChunk :=
  match body with
  | [] => []
  | stmt :: rest =>
    match stmt self with
    | (Ok _, self') => self' :: states_after rest self'
    | (Raise _, _) => []
    end
  end.

(** ** Sequences of calls on one chunk

    What the tree and the loader do to a chunk after building it: set the
    [loading] attribute, assign to [data], call [clear()]. *)

Inductive op : Type :=
| SetLoading (b : bool)
| SetData (d : ArrayLike)
| Clear.

Definition call (o : op) : M () :=
  match o with
  | SetLoading b => store_loading b
  | SetData d => data_setter d
  | Clear => clear
  end.

(** The chunk after a call, whether the call returned or raised. *)
Definition after (o : op) (self : OctreeChunk) : OctreeChunk :=
  snd (call o self).

Definition run (ops : list op) (self : OctreeChunk) : OctreeChunk :=
  foldl (λ c o, after o c) self ops.

(** Every [loading = True] in the sequence meets a chunk that is not in
    memory, as a loader does that asks [needs_load] first. *)
Fixpoint marks_only_unloaded (ops : list op) (self : OctreeChunk) : bool :=
  match ops with
  | [] => true
  | o :: ops' =>
    match o with
    | SetLoading true => negb (in_memory self)
    | _ => true
    end && marks_only_unloaded ops' (after o self)
  end.

(** The load states of the specification, read off the two accessors; a
    chunk that is in memory and loading is in none of them. *)
Inductive LoadState : Type :=
| UNLOADED
| LOADING
| LOADED.

Definition load_state (self : OctreeChunk) : option LoadState :=
  match in_memory self, loading self with
  | false, false => Some UNLOADED
  | false, true => Some LOADING
  | true, false => Some LOADED
  | true, true => None
  end.

(** What no call is meant to touch: the location, the geometry and the
    retained original data. *)
Definition same_frame (c c' : OctreeChunk) : Prop :=
  location c' = location c
  ∧ geom c' = geom c
  ∧ _orig_data c' = _orig_data c.

(** In memory implies not loading. *)
Definition consistent (c : OctreeChunk) : Prop :=
  in_memory c = true → loading c = false.

End Octree.

Arguments OctreeChunkGeom scalar : clear implicits.
Arguments PyVal scalar : clear implicits.
Arguments OctreeChunk scalar : clear implicits.
Arguments M scalar A : clear implicits.

(** ** Concrete values for the examples

    Coordinates are taken in [Z] here. *)

Definition D0 : ArrayLike := PyObj 1 other_class.
Definition M0 : ArrayLike := PyObj 2 np_ndarray.

Definition L0 : OctreeLocation := mkLocation 1 2 0 3.
Definition G0 : OctreeChunkGeom Z := mkGeom [0; 768] [4; 4].

Definition chunk0 : OctreeChunk Z := OctreeChunk_init D0 L0 G0.

(** [chunk0] once a load of it has been queued. *)
Definition chunk0_loading : OctreeChunk Z := run [SetLoading true] chunk0.

(** Two chunks of one level whose positions have three components and
    differ in the third only. *)
Definition chunk_front : OctreeChunk Z :=
  OctreeChunk_init D0 L0 (mkGeom [0; 768; 0] [4; 4; 4]).
Definition chunk_back : OctreeChunk Z :=
  OctreeChunk_init D0 L0 (mkGeom [0; 768; 256] [4; 4; 4]).

(** A chunk of the same level and position as [chunk0], built on an
    ndarray, in another slice, row and column and with another scale. *)
Definition chunk_other_slice : OctreeChunk Z :=
  OctreeChunk_init M0 (mkLocation 9 2 5 7) (mkGeom [0; 768] [1; 1]).

(** ** String forms

    [str] of an [int] is its decimal form, which is what [pretty] gives on
    [Z] and [N].  [id(self)] is the identity of the tuple object, which the
    value [OctreeLocation] does not carry: it is an argument here. *)

(** [OctreeLocation.__str__]:
    [f"location=({self.level_index}, {self.row}, {self.col}) "
     f"slice={self.slice_id} id={id(self)}"] *)
Definition OctreeLocation_str (self_id : N) (self : OctreeLocation) : string :=
  "location=(" +:+ pretty (level_index self) +:+ ", " +:+ pretty (row self)
  +:+ ", " +:+ pretty (col self) +:+ ") slice=" +:+ pretty (slice_id self)
  +:+ " id=" +:+ pretty self_id.

(** [OctreeChunk.__str__]: [f"{self.location}"]; [location_id] is the
    identity of the location object the chunk holds. *)
Definition OctreeChunk_str {scalar : Type} (location_id : N)
    (self : OctreeChunk scalar) : string :=
  OctreeLocation_str location_id (location self).

(** The characters of a decimal form: the digits and the sign. *)
Definition num_char (a : ascii) : bool :=
  bool_decide (a ∈ ["0"; "1"; "2"; "3"; "4"; "5"; "6"; "7"; "8"; "9"; "-"]%char).

Fixpoint numeric (s : string) : Prop :=
  match s with
  | EmptyString => True
  | String a s' => num_char a = true ∧ numeric s'
  end.

(** * Properties *)

Section Properties.

Context {scalar : Type}.
Implicit Types (self c : OctreeChunk scalar) (d : ArrayLike) (o : op).

(** ** The two setters and [clear], computed *)

Lemma data_setter_ndarray c d :
  isinstance_ndarray d = true →
  data_setter d c
  = (Ok (), mkChunk d (_orig_data c) (location c) (geom c) false).
Proof.
  intros Hd. unfold data_setter, bind, assert_. rewrite Hd. reflexivity.
Qed.

Lemma data_setter_other c d :
  isinstance_ndarray d = false →
  data_setter d c = (Raise AssertionError, c).
Proof.
  intros Hd. unfold data_setter, bind, assert_. rewrite Hd. reflexivity.
Qed.

Lemma clear_computes c :
  clear c
  = (Ok (), mkChunk (_orig_data c) (_orig_data c) (location c) (geom c) false).
Proof. reflexivity. Qed.

(** The data setter hands back either the chunk it was given or a chunk
    with both stores made. *)
Lemma data_setter_cases c d :
  (isinstance_ndarray d = false ∧ data_setter d c = (Raise AssertionError, c))
  ∨ (isinstance_ndarray d = true
     ∧ data_setter d c
       = (Ok (), mkChunk d (_orig_data c) (location c) (geom c) false)).
Proof.
  destruct (isinstance_ndarray d) eqn:Hd.
  - right. split; [reflexivity | by apply data_setter_ndarray].
  - left. split; [reflexivity | by apply data_setter_other].
Qed.

(** ** What no call touches *)

Lemma same_frame_refl c : same_frame c c.
Proof. by repeat split. Qed.

Lemma same_frame_trans c1 c2 c3 :
  same_frame c1 c2 → same_frame c2 c3 → same_frame c1 c3.
Proof.
  intros (Hl1 & Hg1 & Ho1) (Hl2 & Hg2 & Ho2).
  repeat split; congruence.
Qed.

Lemma after_frame o c : same_frame c (after o c).
Proof.
  destruct o as [b | d |]; unfold after; simpl.
  - by repeat split.
  - destruct (data_setter_cases c d) as [[_ ->] | [_ ->]]; by repeat split.
  - by repeat split.
Qed.

Lemma run_frame ops c : same_frame c (run ops c).
Proof.
  revert c. induction ops as [| o ops IH]; intros c; simpl.
  - apply same_frame_refl.
  - eapply same_frame_trans; [apply after_frame | apply IH].
Qed.

(** ** The load invariant along a sequence of calls *)

Lemma init_consistent d loc g : consistent (@OctreeChunk_init scalar d loc g).
Proof. by intros _. Qed.

Lemma after_consistent o c :
  consistent c →
  match o with
  | SetLoading true => in_memory c = false
  | _ => True
  end →
  consistent (after o c).
Proof.
  intros Hc Ho. destruct o as [[] | d |]; unfold after, consistent; simpl.
  - unfold in_memory, data in *; simpl. congruence.
  - done.
  - destruct (data_setter_cases c d) as [[_ ->] | [_ ->]]; done.
  - done.
Qed.

Lemma run_consistent ops c :
  consistent c →
  marks_only_unloaded ops c = true →
  consistent (run ops c).
Proof.
  revert c. induction ops as [| o ops IH]; intros c Hc Hg; simpl in *.
  - done.
  - apply andb_true_iff in Hg as [Ho Hg].
    apply IH; [| done].
    apply after_consistent; [done |].
    destruct o as [[] | |]; try done.
    by apply negb_true_iff.
Qed.

(** ** Accessors *)

(** C1: [needs_load] is true exactly when [in_memory] is false and [loading]
    is false; in the other three combinations of the two it is false. *)
Theorem needs_load_table c :
  needs_load c
  = match in_memory c, loading c with
    | false, false => true
    | false, true => false
    | true, false => false
    | true, true => false
    end
  ∧ (needs_load c = true ↔ in_memory c = false ∧ loading c = false).
Proof.
  unfold needs_load. destruct (in_memory c), (loading c); simpl.
  all: split; [reflexivity | split; [intros; done | intros []; done]].
Qed.

(** ** The data setter *)

(** The setter is its three statements run in order. *)
Lemma exec_data_setter_body c d :
  exec_body (data_setter_body d) c = data_setter d c.
Proof.
  unfold data_setter_body, data_setter, exec_body, bind, assert_.
  by destruct (isinstance_ndarray d).
Qed.

(** C3, as amended: assigning an ndarray [m] returns normally with the
    chunk holding [m], in memory and not loading.  The setter gets there by
    two stores, the data first and the loading flag second: between them the
    chunk holds [m] with the loading flag it had before the call, and that
    is the one state between the chunk as it was and the chunk as the call
    leaves it. *)
Theorem data_setter_two_stores c m :
  isinstance_ndarray m = true →
  (∃ c', exec_body (data_setter_body m) c = (Ok (), c')
         ∧ data_setter m c = (Ok (), c')
         ∧ data c' = m ∧ in_memory c' = true ∧ loading c' = false)
  ∧ states_after (data_setter_body m) c
    = [c;
       mkChunk m (_orig_data c) (location c) (geom c) (loading c);
       mkChunk m (_orig_data c) (location c) (geom c) false]
  ∧ (∀ s, s ∈ states_after (data_setter_body m) c →
          s = c
          ∨ (data s = m ∧ in_memory s = true
             ∧ (loading s = loading c ∨ loading s = false))).
Proof.
  intros Hm.
  assert (Hs : states_after (data_setter_body m) c
               = [c;
                  mkChunk m (_orig_data c) (location c) (geom c) (loading c);
                  mkChunk m (_orig_data c) (location c) (geom c) false]).
  { unfold data_setter_body, states_after, assert_. rewrite Hm. reflexivity. }
  split_and!.
  - eexists. rewrite exec_data_setter_body.
    split; [by apply data_setter_ndarray |].
    split; [by apply data_setter_ndarray |].
    by repeat split.
  - exact Hs.
  - intros s. rewrite Hs. intros Hin.
    apply elem_of_cons in Hin as [-> | Hin]; [by left |].
    apply elem_of_cons in Hin as [-> | Hin].
    { right. unfold in_memory, data; simpl. split_and!; [done | done | by left]. }
    apply elem_of_cons in Hin as [-> | Hin].
    { right. unfold in_memory, data; simpl. split_and!; [done | done | by right]. }
    by apply elem_of_nil in Hin.
Qed.

(** C4: assigning anything that is not an ndarray raises [AssertionError],
    and the chunk is left as it was: in particular its data and its loading
    flag are unchanged. *)
Theorem data_setter_rejects c d :
  isinstance_ndarray d = false →
  data_setter d c = (Raise AssertionError, c)
  ∧ data (snd (data_setter d c)) = data c
  ∧ loading (snd (data_setter d c)) = loading c.
Proof.
  intros Hd. rewrite (data_setter_other c d Hd). by repeat split.
Qed.

(** C10: the data setter takes an ndarray in every load state: from any
    chunk, be it unloaded, loading or loaded, the call returns normally and
    leaves the chunk loaded ([in_memory] true, [loading] false). *)
Theorem data_setter_any_state c m :
  isinstance_ndarray m = true →
  ∃ c', data_setter m c = (Ok (), c')
        ∧ in_memory c' = true ∧ loading c' = false
        ∧ load_state c' = Some LOADED.
Proof.
  intros Hm. eexists. split; [by apply data_setter_ndarray |].
  unfold load_state, in_memory, data; simpl. by rewrite Hm.
Qed.

(** ** Frame *)

(** C9: the data setter (with an ndarray, and with a value it rejects
    too) and [clear()] leave the location, the geometry and the retained
    original data as they were; so does any sequence of calls, so the
    geometry given at construction stays. *)
Theorem setter_and_clear_frame c :
  (∀ d, same_frame c (snd (data_setter d c)))
  ∧ same_frame c (snd (clear c))
  ∧ (∀ d loc g ops,
       geom (run ops (@OctreeChunk_init scalar d loc g)) = g).
Proof.
  split; [| split].
  - intros d. apply (after_frame (SetData d)).
  - apply (after_frame Clear).
  - intros d loc g ops.
    by destruct (run_frame ops (OctreeChunk_init d loc g)) as (_ & -> & _).
Qed.

(** ** [clear()] *)

(** C5: a chunk built on a deferred data object [D] and then taken through
    any sequence of calls is, after [clear()], back on [D] itself, not in
    memory and not loading. *)
Theorem clear_restores D loc g ops :
  isinstance_ndarray D = false →
  ∃ c', clear (run ops (@OctreeChunk_init scalar D loc g)) = (Ok (), c')
        ∧ data c' = D ∧ in_memory c' = false ∧ loading c' = false.
Proof.
  intros HD. eexists. split; [apply clear_computes |].
  destruct (run_frame ops (@OctreeChunk_init scalar D loc g)) as (_ & _ & Ho).
  simpl in Ho. unfold in_memory, data; simpl. rewrite Ho. by repeat split.
Qed.

(** ** The load invariant *)

(** C2, as amended: along any sequence of calls on a new chunk in which
    [loading] is set to true only while the chunk is not in memory,
    [in_memory] implies not [loading]: the two are never true together. *)
Theorem loading_invariant_guarded d loc g ops :
  marks_only_unloaded ops (@OctreeChunk_init scalar d loc g) = true →
  consistent (run ops (OctreeChunk_init d loc g))
  ∧ in_memory (run ops (OctreeChunk_init d loc g))
    && loading (run ops (OctreeChunk_init d loc g)) = false.
Proof.
  intros Hg.
  assert (Hc : consistent (run ops (@OctreeChunk_init scalar d loc g)))
    by (apply run_consistent; [apply init_consistent | done]).
  split; [done |].
  unfold consistent in Hc.
  destruct (in_memory _); [by rewrite Hc | done].
Qed.

(** ** The lightweight key *)

(** C8, as amended: two chunks with the same key have the same level and
    the same first two position components; their positions are equal when
    both have exactly two components. *)
Theorem key_eq_level_and_pos2 c1 c2 k :
  key c1 = Ok k →
  key c2 = Ok k →
  level_index (location c1) = level_index (location c2)
  ∧ pos (geom c1) !! 0%nat = pos (geom c2) !! 0%nat
  ∧ pos (geom c1) !! 1%nat = pos (geom c2) !! 1%nat
  ∧ (length (pos (geom c1)) = 2%nat → length (pos (geom c2)) = 2%nat →
     pos (geom c1) = pos (geom c2)).
Proof.
  unfold key, index. intros H1 H2.
  destruct (pos (geom c1)) as [| a0 [| a1 p1]] eqn:E1; simpl in H1; try done.
  destruct (pos (geom c2)) as [| b0 [| b1 p2]] eqn:E2; simpl in H2; try done.
  simplify_eq. split_and!; try done.
  intros L1 L2. simpl in L1, L2.
  destruct p1, p2; simpl in *; done.
Qed.

(** ** [create_null] *)

(** A call with one argument per field does build the tuple. *)
Lemma namedtuple_new_location (l : OctreeLocation) :
  namedtuple_new OctreeLocation_fields (OctreeLocation_astuple l)
  = Ok (@OctreeLocation_astuple scalar l).
Proof. reflexivity. Qed.

(** C6: [create_null()] passes six arguments to the four-field tuple and
    so raises [TypeError]; it returns no location, all-zero or other. *)
Theorem create_null_raises :
  @create_null scalar = Raise TypeError
  ∧ ¬ ∃ l, @create_null scalar = Ok (OctreeLocation_astuple l).
Proof.
  split; [reflexivity |]. intros [l Hl]. discriminate Hl.
Qed.

(** ** The cache key *)

Lemma hash_values_of_new (i : N) (layer : Layer) (idx : Indices)
    (loc : OctreeLocation) :
  OctreeChunkKey._get_hash_values (key_object_state (OctreeChunkKey_new i layer idx loc))
  = [HOwner (owner_id layer); HIndices idx; HLocation loc].
Proof. reflexivity. Qed.

(** C7: two key objects, whichever their identities, are equal exactly
    when they were built from the same owner, the same index tuple and the
    same location, and then they have the same hash, whatever Python's
    [hash] is on tuples.  The load state plays no part: the keys built for a
    chunk before and after any calls on it are equal and hash alike. *)
Theorem chunk_key_equal_iff_triple (py_hash : list HashValue → Z)
    (id1 id2 : N)
    (layer1 layer2 : Layer) (idx1 idx2 : Indices) (loc1 loc2 : OctreeLocation) :
  (KeyObject_eq (OctreeChunkKey_new id1 layer1 idx1 loc1)
                (OctreeChunkKey_new id2 layer2 idx2 loc2) = true
   ↔ owner_id layer1 = owner_id layer2 ∧ idx1 = idx2 ∧ loc1 = loc2)
  ∧ (owner_id layer1 = owner_id layer2 ∧ idx1 = idx2 ∧ loc1 = loc2 →
     KeyObject_hash py_hash (OctreeChunkKey_new id1 layer1 idx1 loc1)
     = KeyObject_hash py_hash (OctreeChunkKey_new id2 layer2 idx2 loc2))
  ∧ (∀ c ops,
       KeyObject_eq (OctreeChunkKey_new id1 layer1 idx1 (location c))
                    (OctreeChunkKey_new id2 layer1 idx1 (location (run ops c)))
       = true
       ∧ KeyObject_hash py_hash (OctreeChunkKey_new id1 layer1 idx1 (location c))
         = KeyObject_hash py_hash
             (OctreeChunkKey_new id2 layer1 idx1 (location (run ops c)))).
Proof.
  unfold KeyObject_eq, KeyObject_hash, OctreeChunkKey.eq, OctreeChunkKey.hash.
  rewrite !hash_values_of_new. split_and!.
  - rewrite bool_decide_eq_true. split.
    + by intros [= -> -> ->].
    + by intros (-> & -> & ->).
  - by intros (-> & -> & ->).
  - intros c ops. rewrite !hash_values_of_new.
    destruct (run_frame ops c) as (-> & _ & _).
    split; [by apply bool_decide_eq_true | done].
Qed.

End Properties.

(** * Examples *)

(** The chunk's life as the loader drives it: built on [D0] it needs a load;
    marked as loading it does not; given [M0] it is in memory and holds
    [M0]; cleared it is back on [D0]. *)
Example scenario_load_and_clear :
  needs_load chunk0 = true
  ∧ (let c1 := run [SetLoading true] chunk0 in
     needs_load c1 = false ∧ in_memory c1 = false)
  ∧ (let c2 := run [SetLoading true; SetData M0] chunk0 in
     in_memory c2 = true ∧ loading c2 = false ∧ data c2 = M0)
  ∧ (let c3 := run [SetLoading true; SetData M0; Clear] chunk0 in
     data c3 = D0 ∧ in_memory c3 = false ∧ loading c3 = false).
Proof. repeat split. Qed.

(** C2, as stated, fails: assign an ndarray, then set [loading]; the chunk
    is in memory and loading. *)
Lemma loading_invariant_counterexample :
  isinstance_ndarray D0 = false
  ∧ in_memory (run [SetData M0; SetLoading true] chunk0) = true
  ∧ loading (run [SetData M0; SetLoading true] chunk0) = true
  ∧ ¬ consistent (run [SetData M0; SetLoading true] chunk0).
Proof.
  split_and!; try reflexivity.
  intros H. specialize (H eq_refl). discriminate H.
Qed.

Lemma loading_invariant_guarded_witness :
  marks_only_unloaded [SetLoading true; SetData M0] chunk0 = true
  ∧ consistent (run [SetLoading true; SetData M0] chunk0)
  ∧ in_memory (run [SetLoading true; SetData M0] chunk0)
    && loading (run [SetLoading true; SetData M0] chunk0) = false.
Proof.
  split; [reflexivity |].
  apply (loading_invariant_guarded D0 L0 G0 [SetLoading true; SetData M0]).
  reflexivity.
Defined.

(** C3, as stated, fails: on a chunk that is loading, the setter's first
    store leaves the chunk in memory and still loading, a state that is
    neither the chunk before the call nor the chunk after it. *)
Lemma data_setter_intermediate_state :
  load_state chunk0_loading = Some LOADING
  ∧ isinstance_ndarray M0 = true
  ∧ states_after (data_setter_body M0) chunk0_loading !! 1%nat
    = Some (mkChunk M0 D0 L0 G0 true)
  ∧ mkChunk M0 D0 L0 G0 true ≠ chunk0_loading
  ∧ mkChunk M0 D0 L0 G0 true ≠ snd (data_setter M0 chunk0_loading)
  ∧ in_memory (mkChunk M0 D0 L0 G0 true) = true
  ∧ loading (mkChunk M0 D0 L0 G0 true) = true.
Proof.
  split_and!; try reflexivity.
  - intros H. discriminate H.
  - intros H. discriminate H.
Qed.

Lemma data_setter_two_stores_witness :
  isinstance_ndarray M0 = true
  ∧ (∃ c', exec_body (data_setter_body M0) chunk0_loading = (Ok (), c')
           ∧ data_setter M0 chunk0_loading = (Ok (), c')
           ∧ data c' = M0 ∧ in_memory c' = true ∧ loading c' = false)
  ∧ states_after (data_setter_body M0) chunk0_loading
    = [chunk0_loading;
       mkChunk M0 (_orig_data chunk0_loading) (location chunk0_loading)
         (geom chunk0_loading) (loading chunk0_loading);
       mkChunk M0 (_orig_data chunk0_loading) (location chunk0_loading)
         (geom chunk0_loading) false]
  ∧ (∀ s, s ∈ states_after (data_setter_body M0) chunk0_loading →
          s = chunk0_loading
          ∨ (data s = M0 ∧ in_memory s = true
             ∧ (loading s = loading chunk0_loading ∨ loading s = false))).
Proof.
  split; [reflexivity |].
  apply (data_setter_two_stores chunk0_loading M0). reflexivity.
Defined.

Lemma data_setter_rejects_witness :
  isinstance_ndarray D0 = false
  ∧ data_setter D0 (run [SetLoading true] chunk0)
    = (Raise AssertionError, run [SetLoading true] chunk0)
  ∧ data (snd (data_setter D0 (run [SetLoading true] chunk0)))
    = data (run [SetLoading true] chunk0)
  ∧ loading (snd (data_setter D0 (run [SetLoading true] chunk0)))
    = loading (run [SetLoading true] chunk0).
Proof.
  split; [reflexivity |].
  apply (data_setter_rejects (run [SetLoading true] chunk0) D0). reflexivity.
Defined.

Lemma data_setter_any_state_witness :
  isinstance_ndarray M0 = true
  ∧ ∃ c', data_setter M0 (run [SetLoading true] chunk0) = (Ok (), c')
          ∧ in_memory c' = true ∧ loading c' = false
          ∧ load_state c' = Some LOADED.
Proof.
  split; [reflexivity |].
  apply (data_setter_any_state (run [SetLoading true] chunk0) M0). reflexivity.
Defined.

Lemma clear_restores_witness :
  isinstance_ndarray D0 = false
  ∧ ∃ c', clear (run [SetLoading true; SetData M0] (OctreeChunk_init D0 L0 G0))
          = (Ok (), c')
          ∧ data c' = D0 ∧ in_memory c' = false ∧ loading c' = false.
Proof.
  split; [reflexivity |].
  apply (clear_restores D0 L0 G0 [SetLoading true; SetData M0]). reflexivity.
Defined.

(** C8, as stated, fails: the two chunks have one key and one level, and
    different positions. *)
Lemma key_eq_counterexample :
  key chunk_front = Ok (0, 768, 2)
  ∧ key chunk_back = Ok (0, 768, 2)
  ∧ level_index (location chunk_front) = level_index (location chunk_back)
  ∧ pos (geom chunk_front) ≠ pos (geom chunk_back).
Proof.
  split_and!; try reflexivity. intros H. discriminate H.
Qed.

Lemma key_eq_level_and_pos2_witness :
  key chunk0 = Ok (0, 768, 2)
  ∧ key (run [SetData M0] chunk0) = Ok (0, 768, 2)
  ∧ level_index (location chunk0)
    = level_index (location (run [SetData M0] chunk0))
  ∧ pos (geom chunk0) !! 0%nat = pos (geom (run [SetData M0] chunk0)) !! 0%nat
  ∧ pos (geom chunk0) !! 1%nat = pos (geom (run [SetData M0] chunk0)) !! 1%nat
  ∧ (length (pos (geom chunk0)) = 2%nat →
     length (pos (geom (run [SetData M0] chunk0))) = 2%nat →
     pos (geom chunk0) = pos (geom (run [SetData M0] chunk0))).
Proof.
  split; [reflexivity |]. split; [reflexivity |].
  apply (key_eq_level_and_pos2 chunk0 (run [SetData M0] chunk0) (0, 768, 2));
    reflexivity.
Defined.

(** Two key objects for one tile are equal and hash alike; a key of the
    same layer and indices for another tile is not equal to them. *)
Example key_objects_of_one_tile :
  KeyObject_eq
    (OctreeChunkKey_new 11 (mkLayer 7) [None; Some (mkSlice (Some 0) (Some 256) None)]
       (mkLocation 1 0 2 2))
    (OctreeChunkKey_new 12 (mkLayer 7) [None; Some (mkSlice (Some 0) (Some 256) None)]
       (mkLocation 1 0 2 2))
  = true
  ∧ KeyObject_eq
      (OctreeChunkKey_new 11 (mkLayer 7) [None] (mkLocation 1 0 2 2))
      (OctreeChunkKey_new 13 (mkLayer 7) [None] (mkLocation 1 0 2 3))
    = false.
Proof. split; reflexivity. Qed.

Lemma chunk_key_equal_iff_triple_witness :
  KeyObject_eq
    (OctreeChunkKey_new 11 (mkLayer 7) [None; Some (mkSlice (Some 0) (Some 256) None)]
       (mkLocation 1 0 2 2))
    (OctreeChunkKey_new 12 (mkLayer 7) [None; Some (mkSlice (Some 0) (Some 256) None)]
       (mkLocation 1 0 2 2))
  = true
  ∧ KeyObject_hash (λ vs, match vs with HOwner i :: _ => Z.of_N i | _ => 0 end)
      (OctreeChunkKey_new 11 (mkLayer 7)
         [None; Some (mkSlice (Some 0) (Some 256) None)] (mkLocation 1 0 2 2))
    = KeyObject_hash (λ vs, match vs with HOwner i :: _ => Z.of_N i | _ => 0 end)
      (OctreeChunkKey_new 12 (mkLayer 7)
         [None; Some (mkSlice (Some 0) (Some 256) None)] (mkLocation 1 0 2 2)).
Proof.
  pose proof (chunk_key_equal_iff_triple (scalar := Z)
                (λ vs, match vs with HOwner i :: _ => Z.of_N i | _ => 0 end)
                11 12 (mkLayer 7) (mkLayer 7)
                [None; Some (mkSlice (Some 0) (Some 256) None)]
                [None; Some (mkSlice (Some 0) (Some 256) None)]
                (mkLocation 1 0 2 2) (mkLocation 1 0 2 2)) as (Heq & Hh & _).
  split.
  - apply Heq. repeat split.
  - apply Hh. repeat split.
Defined.

(** * Further properties *)

(** ** Decimal forms and the separators between them *)

Lemma pretty_N_char_numeric (x : N) : num_char (pretty_N_char x) = true.
Proof. unfold pretty_N_char. by repeat case_match. Qed.

Lemma pretty_N_go_numeric (x : N) (s : string) :
  numeric s → numeric (pretty_N_go x s).
Proof.
  revert s. induction (N.lt_wf_0 x) as [x _ IH]; intros s Hs.
  destruct (decide (x = 0)%N) as [-> | Hx]; [by rewrite pretty_N_go_0 |].
  rewrite pretty_N_go_step by lia.
  apply IH; [apply N.div_lt; lia |].
  split; [apply pretty_N_char_numeric | done].
Qed.

Lemma pretty_N_numeric (x : N) : numeric (pretty x).
Proof.
  unfold pretty, pretty_N. case_decide; [done |].
  by apply pretty_N_go_numeric.
Qed.

Lemma pretty_Z_numeric (x : Z) : numeric (pretty x).
Proof.
  destruct x as [| p | p]; [done | apply (pretty_N_numeric (N.pos p)) |].
  split; [done | apply (pretty_N_numeric (N.pos p))].
Qed.

(** Two texts that begin with a decimal form followed by a character that
    is no digit and no sign agree on the decimal form and on the rest. *)
Lemma numeric_prefix_inj (s1 s2 : string) (a1 a2 : ascii) (r1 r2 : string) :
  numeric s1 → numeric s2 →
  num_char a1 = false → num_char a2 = false →
  s1 +:+ String a1 r1 = s2 +:+ String a2 r2 →
  s1 = s2 ∧ String a1 r1 = String a2 r2.
Proof.
  revert s2. induction s1 as [| b1 s1 IH]; intros [| b2 s2]; simpl.
  - done.
  - intros _ [Hb _] Ha _ [= -> _]. congruence.
  - intros [Hb _] _ _ Ha [= -> _]. congruence.
  - intros [_ H1] [_ H2] Ha1 Ha2 [= -> Hs].
    destruct (IH s2 H1 H2 Ha1 Ha2 Hs) as [-> ?]. done.
Qed.

(** ** String forms *)

(** The five numbers can be read back from the string. *)
Lemma OctreeLocation_str_fields (i1 i2 : N) (l1 l2 : OctreeLocation) :
  OctreeLocation_str i1 l1 = OctreeLocation_str i2 l2 →
  l1 = l2 ∧ i1 = i2.
Proof.
  destruct l1 as [s1 v1 r1 c1], l2 as [s2 v2 r2 c2].
  unfold OctreeLocation_str; simpl. intros [= H].
  apply numeric_prefix_inj in H as [Hv [= H]];
    [| apply pretty_Z_numeric | apply pretty_Z_numeric | done | done].
  apply numeric_prefix_inj in H as [Hr [= H]];
    [| apply pretty_Z_numeric | apply pretty_Z_numeric | done | done].
  apply numeric_prefix_inj in H as [Hc [= H]];
    [| apply pretty_Z_numeric | apply pretty_Z_numeric | done | done].
  apply numeric_prefix_inj in H as [Hs [= Hi]];
    [| apply pretty_Z_numeric | apply pretty_Z_numeric | done | done].
  apply (inj pretty) in Hv, Hr, Hc, Hs, Hi. by subst.
Qed.

(** X10: the string of a location tells the location and the object apart
    from every other: two strings are equal only for equal fields and the
    same identity. *)
Theorem OctreeLocation_str_inj (i1 i2 : N) (l1 l2 : OctreeLocation) :
  OctreeLocation_str i1 l1 = OctreeLocation_str i2 l2 →
  l1 = l2 ∧ i1 = i2.
Proof.
  intros H. by apply OctreeLocation_str_fields in H.
Qed.

Section Lifecycle.

Context {scalar : Type}.
Implicit Types (c : OctreeChunk scalar) (d m : ArrayLike) (o : op).
Implicit Types (ops : list op).

(** ** Calls that overwrite what came before *)

Lemma after_clear_of_frame c c' :
  same_frame c c' → after Clear c' = after Clear c.
Proof.
  intros (Hl & Hg & Ho). unfold after, call.
  rewrite !clear_computes; simpl. by rewrite Hl, Hg, Ho.
Qed.

Lemma after_set_of_frame c c' m :
  isinstance_ndarray m = true →
  same_frame c c' → after (SetData m) c' = after (SetData m) c.
Proof.
  intros Hm (Hl & Hg & Ho). unfold after, call.
  rewrite !data_setter_ndarray by done; simpl. by rewrite Hl, Hg, Ho.
Qed.

(** X1: [clear()] forgets every call made before it, and on a chunk taken
    through any calls since it was built it gives back the chunk exactly as
    [__init__] made it. *)
Theorem clear_resets c ops :
  after Clear (run ops c) = after Clear c
  ∧ (∀ d loc g,
       after Clear (run ops (@OctreeChunk_init scalar d loc g))
       = OctreeChunk_init d loc g).
Proof.
  split.
  - apply after_clear_of_frame, run_frame.
  - intros d loc g.
    by rewrite (after_clear_of_frame _ _ (run_frame ops (OctreeChunk_init d loc g))).
Qed.

(** X2: an accepted assignment overrides every call made before it: the
    chunk is the one the assignment alone would have given. *)
Theorem assignment_overrides c ops m :
  isinstance_ndarray m = true →
  after (SetData m) (run ops c) = after (SetData m) c.
Proof.
  intros Hm. apply after_set_of_frame; [done | apply run_frame].
Qed.

(** ** The data a chunk holds *)

Lemma data_after o c :
  data (after o c) = data c
  ∨ data (after o c) = _orig_data c
  ∨ (isinstance_ndarray (data (after o c)) = true
     ∧ o = SetData (data (after o c))).
Proof.
  destruct o as [b | d |]; unfold after; simpl.
  - by left.
  - destruct (data_setter_cases c d) as [[_ ->] | [Hd ->]]; [by left |].
    right; right. by split.
  - right; by left.
Qed.

Lemma data_run ops c :
  data (run ops c) = data c
  ∨ data (run ops c) = _orig_data c
  ∨ (isinstance_ndarray (data (run ops c)) = true
     ∧ SetData (data (run ops c)) ∈ ops).
Proof.
  revert c. induction ops as [| o ops IH]; intros c; simpl; [by left |].
  destruct (after_frame o c) as (_ & _ & Ho).
  destruct (IH (after o c)) as [H | [H | [Hn Hin]]].
  - rewrite H.
    destruct (data_after o c) as [H' | [H' | [Hn' Ho']]]; [by left | by right; left |].
    right; right. split; [done |]. rewrite <- Ho'. apply list_elem_of_here.
  - right; left. by rewrite H, Ho.
  - right; right. split; [done |]. by apply list_elem_of_further.
Qed.

(** X3: the data of a chunk is, after any calls, the object it was built
    on or an ndarray that one of the calls assigned; nothing else is ever
    stored. *)
Theorem data_original_or_assigned d loc g ops :
  data (run ops (@OctreeChunk_init scalar d loc g)) = d
  ∨ (isinstance_ndarray (data (run ops (@OctreeChunk_init scalar d loc g))) = true
     ∧ SetData (data (run ops (@OctreeChunk_init scalar d loc g))) ∈ ops).
Proof.
  destruct (data_run ops (@OctreeChunk_init scalar d loc g)) as [H | [H | H]];
    [by left | by left | by right].
Qed.

(** X4: a chunk built on an ndarray is in memory from the start and stays
    so through any calls, [clear()] included; it never needs a load. *)
Theorem built_on_ndarray_stays_in_memory d loc g ops :
  isinstance_ndarray d = true →
  in_memory (run ops (@OctreeChunk_init scalar d loc g)) = true
  ∧ needs_load (run ops (@OctreeChunk_init scalar d loc g)) = false.
Proof.
  intros Hd.
  assert (in_memory (run ops (@OctreeChunk_init scalar d loc g)) = true) as Hm.
  { unfold in_memory.
    destruct (data_run ops (@OctreeChunk_init scalar d loc g))
      as [-> | [-> | [H _]]]; done. }
  split; [done |]. unfold needs_load. by rewrite Hm.
Qed.

(** X5: a chunk that needs a load holds the very object it was built on,
    that object is no ndarray, and the chunk is not marked as loading. *)
Theorem needs_load_holds_original d loc g ops :
  needs_load (run ops (@OctreeChunk_init scalar d loc g)) = true →
  data (run ops (@OctreeChunk_init scalar d loc g)) = d
  ∧ isinstance_ndarray d = false
  ∧ loading (run ops (@OctreeChunk_init scalar d loc g)) = false.
Proof.
  unfold needs_load, in_memory. intros H.
  apply andb_true_iff in H as [Hm Hl].
  apply negb_true_iff in Hm, Hl.
  destruct (data_run ops (@OctreeChunk_init scalar d loc g))
    as [H | [H | [H _]]]; simpl in H.
  - split_and!; [done | by rewrite <- H | done].
  - split_and!; [done | by rewrite <- H | done].
  - congruence.
Qed.

(** ** Breaking and mending the load invariant *)

(** X6: one call only can take a chunk out of the invariant (in memory
    implies not loading): setting [loading] to true on a chunk that is in
    memory. *)
Theorem only_marking_breaks_invariant o c :
  consistent c →
  ¬ consistent (after o c) →
  o = SetLoading true ∧ in_memory c = true.
Proof.
  intros Hc Hn.
  destruct o as [[] | d |].
  - split; [done |].
    destruct (in_memory c) eqn:Hm; [done |].
    exfalso. apply Hn. by apply after_consistent.
  - exfalso. apply Hn. by apply after_consistent.
  - exfalso. apply Hn. by apply after_consistent.
  - exfalso. apply Hn. by apply after_consistent.
Qed.

(** Whatever the chunk, [clear()] and an accepted assignment leave it
    within the invariant, and not loading. *)
Lemma clear_and_assignment_mend c :
  (consistent (after Clear c) ∧ loading (after Clear c) = false)
  ∧ (∀ m, isinstance_ndarray m = true →
          consistent (after (SetData m) c)
          ∧ loading (after (SetData m) c) = false).
Proof.
  split.
  - by split.
  - intros m Hm. unfold after; simpl.
    rewrite (data_setter_ndarray c m Hm). by split.
Qed.

(** ** The lightweight key *)

(** X7: the key of a chunk is the same after any calls on it: loading,
    assigning and clearing do not move it. *)
Theorem key_stable c ops : key (run ops c) = key c.
Proof.
  destruct (run_frame ops c) as (Hl & Hg & _).
  unfold key. by rewrite Hl, Hg.
Qed.

(** X8: [key] raises [IndexError] when the position has fewer than two
    components, and nothing but that; with two or more it is the first
    two components and the level. *)
Theorem key_bounds c :
  ((length (pos (geom c)) < 2)%nat → key c = Raise IndexError)
  ∧ ((2 ≤ length (pos (geom c)))%nat →
     ∃ p0 p1, pos (geom c) !! 0%nat = Some p0
              ∧ pos (geom c) !! 1%nat = Some p1
              ∧ key c = Ok (p0, p1, level_index (location c))).
Proof.
  unfold key, index.
  destruct (pos (geom c)) as [| p0 [| p1 p]]; simpl; split; intros H;
    try done; try lia.
  by exists p0, p1.
Qed.

(** X9: the key reads the level and the first two position components
    and nothing else: chunks that agree on these have the same key, be
    they of different slices, rows, columns, scales or data. *)
Theorem key_reads_level_and_pos2 c1 c2 :
  level_index (location c1) = level_index (location c2) →
  pos (geom c1) !! 0%nat = pos (geom c2) !! 0%nat →
  pos (geom c1) !! 1%nat = pos (geom c2) !! 1%nat →
  key c1 = key c2.
Proof.
  unfold key, index. by intros -> -> ->.
Qed.

(** X11: the string of a chunk is that of its location, whatever the load
    state: no call on the chunk changes it, and two chunks print alike
    exactly when their locations are equal and are the same object. *)
Theorem OctreeChunk_str_location (i1 i2 : N) c1 c2 ops :
  OctreeChunk_str i1 (run ops c1) = OctreeChunk_str i1 c1
  ∧ (OctreeChunk_str i1 c1 = OctreeChunk_str i2 c2
     ↔ location c1 = location c2 ∧ i1 = i2).
Proof.
  unfold OctreeChunk_str. split.
  - by destruct (run_frame ops c1) as (-> & _ & _).
  - split; [apply OctreeLocation_str_fields | by intros [-> ->]].
Qed.

End Lifecycle.

(** ** The hash values of a key *)

(** X12: the location is the last of a key's hash values, so two keys with
    the same hash values are keys of the same location. *)
Theorem hash_values_tell_location (k1 k2 : OctreeChunkKey.t) :
  OctreeChunkKey._get_hash_values k1 = OctreeChunkKey._get_hash_values k2 →
  last (OctreeChunkKey._get_hash_values k1)
  = Some (HLocation (OctreeChunkKey.location k1))
  ∧ OctreeChunkKey.location k1 = OctreeChunkKey.location k2.
Proof.
  unfold OctreeChunkKey._get_hash_values. intros H.
  split; [by rewrite last_snoc |].
  apply app_inj_tail in H as [_ [= ->]]. done.
Qed.

(** * Further examples *)

Example OctreeLocation_str_example :
  OctreeLocation_str 140 L0 = "location=(2, 0, 3) slice=1 id=140"
  ∧ OctreeLocation_str 7 (mkLocation (-1) 10 0 (-25))
    = "location=(10, 0, -25) slice=-1 id=7".
Proof. split; reflexivity. Qed.

Lemma assignment_overrides_witness :
  isinstance_ndarray M0 = true
  ∧ after (SetData M0) (run [SetLoading true; Clear; SetData D0] chunk0)
    = after (SetData M0) chunk0.
Proof.
  split; [reflexivity |].
  apply (assignment_overrides chunk0 [SetLoading true; Clear; SetData D0] M0).
  reflexivity.
Defined.

Lemma built_on_ndarray_stays_in_memory_witness :
  isinstance_ndarray M0 = true
  ∧ in_memory (run [SetLoading true; Clear] (OctreeChunk_init M0 L0 G0)) = true
  ∧ needs_load (run [SetLoading true; Clear] (OctreeChunk_init M0 L0 G0)) = false.
Proof.
  split; [reflexivity |].
  apply (built_on_ndarray_stays_in_memory M0 L0 G0 [SetLoading true; Clear]).
  reflexivity.
Defined.

Lemma needs_load_holds_original_witness :
  needs_load (run [SetLoading true; SetData M0; Clear] (OctreeChunk_init D0 L0 G0))
  = true
  ∧ data (run [SetLoading true; SetData M0; Clear] (OctreeChunk_init D0 L0 G0)) = D0
  ∧ isinstance_ndarray D0 = false
  ∧ loading (run [SetLoading true; SetData M0; Clear] (OctreeChunk_init D0 L0 G0))
    = false.
Proof.
  split; [reflexivity |].
  apply (needs_load_holds_original D0 L0 G0 [SetLoading true; SetData M0; Clear]).
  reflexivity.
Defined.

Lemma only_marking_breaks_invariant_witness :
  consistent (run [SetData M0] chunk0)
  ∧ ¬ consistent (after (SetLoading true) (run [SetData M0] chunk0))
  ∧ SetLoading true = SetLoading true
  ∧ in_memory (run [SetData M0] chunk0) = true.
Proof.
  assert (H1 : consistent (run [SetData M0] chunk0)) by (intros _; reflexivity).
  assert (H2 : ¬ consistent (after (SetLoading true) (run [SetData M0] chunk0)))
    by (intros H; specialize (H eq_refl); discriminate H).
  split; [exact H1 |]. split; [exact H2 |].
  exact (only_marking_breaks_invariant (SetLoading true)
           (run [SetData M0] chunk0) H1 H2).
Defined.

Lemma key_reads_level_and_pos2_witness :
  level_index (location chunk0) = level_index (location chunk_other_slice)
  ∧ pos (geom chunk0) !! 0%nat = pos (geom chunk_other_slice) !! 0%nat
  ∧ pos (geom chunk0) !! 1%nat = pos (geom chunk_other_slice) !! 1%nat
  ∧ key chunk0 = key chunk_other_slice.
Proof.
  split; [reflexivity |]. split; [reflexivity |]. split; [reflexivity |].
  apply (key_reads_level_and_pos2 chunk0 chunk_other_slice); reflexivity.
Defined.

Lemma OctreeLocation_str_inj_witness :
  OctreeLocation_str 140 L0 = OctreeLocation_str 140 (mkLocation 1 2 0 3)
  ∧ L0 = mkLocation 1 2 0 3 ∧ 140%N = 140%N.
Proof.
  split; [reflexivity |].
  apply (OctreeLocation_str_inj 140 140 L0 (mkLocation 1 2 0 3)). reflexivity.
Defined.

Lemma hash_values_tell_location_witness :
  OctreeChunkKey._get_hash_values (OctreeChunkKey.init (mkLayer 7) [None] L0)
  = OctreeChunkKey._get_hash_values (OctreeChunkKey.init (mkLayer 7) [None] L0)
  ∧ last (OctreeChunkKey._get_hash_values (OctreeChunkKey.init (mkLayer 7) [None] L0))
    = Some (HLocation (OctreeChunkKey.location (OctreeChunkKey.init (mkLayer 7) [None] L0)))
  ∧ OctreeChunkKey.location (OctreeChunkKey.init (mkLayer 7) [None] L0)
    = OctreeChunkKey.location (OctreeChunkKey.init (mkLayer 7) [None] L0).
Proof.
  split; [reflexivity |].
  apply (hash_values_tell_location
           (OctreeChunkKey.init (mkLayer 7) [None] L0)
           (OctreeChunkKey.init (mkLayer 7) [None] L0)).
  reflexivity.
Defined.
